(** * OpenTimelineIO media linker: resolution policy and invocation contract

    A shallow embedding of [opentimelineio/media_linker.py].  The module is
    effectful Python: it reads [os.environ], queries the active plugin
    manifest, allocates dictionaries and calls into plugin code, and it
    signals failure by raising.  The embedding therefore threads an explicit
    state (the process world plus a log of the calls that cross the module's
    boundary) through a small state-and-exception monad. *)

From stdpp Require Import base option list strings gmap.
From Stdlib Require Import ZArith.

(** ** Python values and objects *)

(** Object identity.  Two dictionaries with the same contents are still two
    objects; the heap below keeps them apart. *)
Definition loc := positive.

(** The values the module passes around without looking inside: the clip,
    the argument map, whatever a plugin returns. *)
Inductive value :=
  | VNone
  | VBool (b : bool)
  | VInt (n : Z)
  | VStr (s : string)
  | VRef (l : loc).

#[global] Instance value_eq_dec : EqDecision value.
Proof. solve_decision. Defined.

(** Heap objects: a [dict], or an instance of some class (a [Clip], a
    media reference, ...) whose attributes the module never reads. *)
Inductive object :=
  | Dict (d : gmap string value)
  | Instance (cls : string) (attrs : gmap string value).

(** ** Exceptions *)

(** The exception classes that occur in the module, and classes derived from
    them (a plugin may raise "an instance (or child instance)" of
    [CannotLinkMediaError]). *)
Inductive exc_class :=
  | NotSupportedError
  | NoDefaultMediaLinkerError
  | CannotLinkMediaError
  | KeyError
  | TypeError
  | OtherError (name : string)
  | Subclass (name : string) (base : exc_class).

#[global] Instance exc_class_eq_dec : EqDecision exc_class.
Proof. solve_decision. Defined.

(** [issubclass c target]: [c] is [target] or derives from it. *)
Fixpoint issubclass (c target : exc_class) : bool :=
  bool_decide (c = target) ||
  match c with
  | Subclass _ base => issubclass base target
  | _ => false
  end.

(** An exception message is a [str.format] call kept unevaluated: the
    template and the arguments it is applied to.  Rendering a list of
    strings goes through Python's [repr], which the embedding does not
    reproduce; it keeps the arguments themselves. *)
Inductive fmt_arg :=
  | FStr (s : string)
  | FList (l : list string).

Record message := Format { template : string; fmt_args : list fmt_arg }.

Record exn := Exn { exn_class : exc_class; exn_message : message }.

Definition isinstance (e : exn) (c : exc_class) : bool :=
  issubclass (exn_class e) c.

(** ** The world the module runs in *)

(** A [MediaLinker] plugin object: the three serialised fields set by
    [__init__], each [None] by default. *)
Record MediaLinker := {
  name : option string;
  execution_scope : option string;
  filepath : option string;
}.

#[global] Instance MediaLinker_eq_dec : EqDecision MediaLinker.
Proof. solve_decision. Defined.

Record World := {
  environ : gmap string string;      (* os.environ *)
  media_linkers : list MediaLinker;  (* plugins.ActiveManifest().media_linkers *)
  heap : gmap loc object;
}.

(** Calls that leave the module: towards the manifest and towards the
    plugin.  The log records them in order. *)
Inductive event :=
  | ManifestFromName (name : string)
  | ManifestMediaLinkers
  | ExecuteFunction (self : MediaLinker) (func_name : string)
                    (kwargs : list (string * value)).

Record State := { world : World; log : list event }.

(** ** State and exception monad *)

Inductive outcome (A : Type) :=
  | Return (a : A)
  | Raise (e : exn).
Arguments Return {A} a.
Arguments Raise {A} e.

Definition M (A : Type) : Type := State → outcome A * State.

#[global] Instance M_ret : MRet M := λ A a st, (Return a, st).

#[global] Instance M_bind : MBind M := λ A B f m st,
  match m st with
  | (Return a, st') => f a st'
  | (Raise e, st') => (Raise e, st')
  end.

#[global] Instance M_fmap : FMap M := λ A B f m, a ← m; mret (f a).

Definition raise {A} (e : exn) : M A := λ st, (Raise e, st).

(** [try: m  except cls: h] *)
Definition try_except {A} (m : M A) (cls : exc_class) (h : exn → M A) : M A :=
  λ st,
    match m st with
    | (Raise e, st') => if isinstance e cls then h e st' else (Raise e, st')
    | r => r
    end.

Definition get_world : M World := λ st, (Return (world st), st).

Definition emit (ev : event) : M () :=
  λ st, (Return (), {| world := world st; log := log st ++ [ev] |}).

(** Run code that may change the world but has no access to the log. *)
Definition lift_world {A} (f : World → outcome A * World) : M A :=
  λ st, let '(r, w) := f (world st) in (r, {| world := w; log := log st |}).

(** ** Python primitives used by the module *)

(** Truth value of an object: [None], [False], [0], [""] and the empty
    dictionary are false; instances of classes without [__bool__] or
    [__len__] are true. *)
Definition truthy (h : gmap loc object) (v : value) : bool :=
  match v with
  | VNone => false
  | VBool b => b
  | VInt n => negb (n =? 0)%Z
  | VStr s => negb (bool_decide (s = ""))
  | VRef l =>
      match h !! l with
      | Some (Dict d) => negb (bool_decide (d = ∅))
      | _ => true
      end
  end.

(** Truth value of an optional string ([None] or a [str]). *)
Definition str_truthy (s : option string) : bool :=
  match s with
  | None => false
  | Some s => negb (bool_decide (s = ""))
  end.

(** [not v] *)
Definition py_not (v : value) : M bool :=
  w ← get_world; mret (negb (truthy (heap w) v)).

(** The display [{}]: a new, empty dictionary object. *)
Definition new_dict : M value :=
  lift_world (λ w,
    let l := fresh (dom (heap w)) in
    (Return (VRef l),
     {| environ := environ w; media_linkers := media_linkers w;
        heap := <[l := Dict ∅]> (heap w) |})).

(** [os.environ.get(key, default)] *)
Definition os_environ_get (key : string) (default : option string)
  : M (option string) :=
  w ← get_world;
  mret (match environ w !! key with Some v => Some v | None => default end).

(** [os.environ[key]] *)
Definition os_environ_getitem (key : string) : M string :=
  w ← get_world;
  match environ w !! key with
  | Some v => mret v
  | None => raise (Exn KeyError (Format key []))
  end.

(** [str(x)] for a plugin name. *)
Definition py_str (s : option string) : string :=
  match s with
  | None => "None"
  | Some s => s
  end.

(** [sep.join(items)]: every item must be a [str]. *)
Fixpoint str_items (items : list value) : option (list string) :=
  match items with
  | [] => Some []
  | VStr s :: rest => cons s <$> str_items rest
  | _ :: _ => None
  end.

Fixpoint join (sep : string) (items : list string) : string :=
  match items with
  | [] => ""
  | [s] => s
  | s :: rest => s +:+ sep +:+ join sep rest
  end.

Definition str_join (sep : string) (items : list value) : M string :=
  match str_items items with
  | Some ss => mret (join sep ss)
  | None =>
      raise (Exn TypeError (Format "sequence item: expected str instance" []))
  end.

(** The one-character string written ["\n"] in Python. *)
Definition nl : string := String (Ascii.ascii_of_nat 10) EmptyString.

(** [d[key]] on a dictionary value. *)
Definition dict_getitem (d : gmap string value) (key : string) : M value :=
  match d !! key with
  | Some v => mret v
  | None => raise (Exn KeyError (Format key []))
  end.

(** ** Collaborators outside the module *)

(** Modelled from the spec: the manifest ([plugins.ActiveManifest()] and its
    [from_name(name, kind_list="media_linkers")]) is not among the sources at
    hand.  Spec 4.2 and 6: [lookup(name)] yields the descriptor registered
    under [name] and fails with UnsupportedLinkerError (the class
    [exceptions.NotSupportedError] that [from_name] below catches) when
    [name] is not a known registered linker.  The text of the manifest's own
    message is not specified; the module replaces it. *)
Definition Manifest_from_name (nm : string) : M MediaLinker :=
  emit (ManifestFromName nm);;
  w ← get_world;
  match find (λ thing, bool_decide (name thing = Some nm)) (media_linkers w) with
  | Some thing => mret thing
  | None =>
      raise (Exn NotSupportedError (Format "could not find plugin: {}" [FStr nm]))
  end.

(** Reading [plugins.ActiveManifest().media_linkers]. *)
Definition ActiveManifest_media_linkers : M (list MediaLinker) :=
  emit ManifestMediaLinkers;;
  w ← get_world;
  mret (media_linkers w).

(** [plugins.PythonPlugin], the base class of [MediaLinker], is not among
    the sources at hand; the plugin code behind a linker is an opaque
    callable in any case.  What [MediaLinker] uses of its base class is
    taken as a parameter: running a named function of the plugin's module
    with keyword arguments, the base class's [plugin_info_map], and the
    documentation that [inspect.getdoc] finds on the module's
    [link_media_reference].  Each may change the world and may raise; none
    can reach the log. *)
Class PythonPlugin := {
  _execute_function :
    MediaLinker → string → list (string * value) → World → outcome value * World;
  super_plugin_info_map :
    MediaLinker → World → outcome (gmap string value) * World;
  getdoc_link_media_reference :
    MediaLinker → World → outcome (option string) * World;
}.

(** ** The module *)

Module MediaLinkingPolicy.
Definition DoNotLinkMedia : string := "__do_not_link_media".
Definition ForceDefaultLinker : string := "__default".
End MediaLinkingPolicy.

Definition available_media_linker_names : M (list string) :=
  linkers ← ActiveManifest_media_linkers;
  mret ((λ adp, py_str (name adp)) <$> linkers).

Definition from_name (nm : option string) : M (option MediaLinker) :=
  nm ← (if bool_decide (nm = Some MediaLinkingPolicy.ForceDefaultLinker)
           || negb (str_truthy nm)
        then os_environ_get "OTIO_DEFAULT_MEDIA_LINKER" None
        else mret nm);
  match nm with
  | None => mret None
  | Some nm =>
      if negb (str_truthy (Some nm)) then mret None
      else
        try_except
          (Some <$> Manifest_from_name nm)
          NotSupportedError
          (λ _,
             available ← available_media_linker_names;
             raise (Exn NotSupportedError
                      (Format "media linker not supported: {}, available: {}"
                              [FStr nm; FList available])))
  end.

Definition default_media_linker : M string :=
  try_except
    (os_environ_getitem "OTIO_DEFAULT_MEDIA_LINKER")
    KeyError
    (λ _,
       raise (Exn NoDefaultMediaLinkerError
                (Format "No default Media Linker set in $OTIO_DEFAULT_MEDIA_LINKER" []))).

Section MediaLinker.
Context `{PythonPlugin}.

(** [self._execute_function(func_name, **kwargs)], logged. *)
Definition execute_function (self : MediaLinker) (func_name : string)
    (kwargs : list (string * value)) : M value :=
  emit (ExecuteFunction self func_name kwargs);;
  lift_world (_execute_function self func_name kwargs).

Definition link_media_reference (self : MediaLinker) (in_clip : value)
    (media_linker_argument_map : value) : M value :=
  falsy ← py_not media_linker_argument_map;
  media_linker_argument_map ←
    (if falsy : bool then new_dict else mret media_linker_argument_map);
  execute_function self "link_media_reference"
    [("in_clip", in_clip);
     ("media_linker_argument_map", media_linker_argument_map)].

Definition is_default_linker (self : MediaLinker) : M bool :=
  configured ← os_environ_get "OTIO_DEFAULT_MEDIA_LINKER" (Some "");
  mret (bool_decide (configured = name self)).

Definition plugin_info_map (self : MediaLinker) : M (gmap string value) :=
  result ← lift_world (super_plugin_info_map self);
  fn_doc ← lift_world (getdoc_link_media_reference self);
  result ←
    match fn_doc with
    | Some fn_doc' =>
        if str_truthy fn_doc then
          doc ← dict_getitem result "doc";
          joined ← str_join nl [doc; VStr ""; VStr fn_doc'];
          mret (<["doc" := VStr joined]> result)
        else mret result
    | None => mret result
    end;
  is_default ← is_default_linker self;
  mret (if is_default : bool
        then <["** CURRENT DEFAULT MEDIA LINKER" := VBool true]> result
        else result).

Definition linked_media_reference (target_clip : value)
    (media_linker_name : option string)
    (media_linker_argument_map : value) : M value :=
  media_linker ← from_name media_linker_name;
  match media_linker with
  | None => mret target_clip
  | Some media_linker =>
      falsy ← py_not media_linker_argument_map;
      media_linker_argument_map ←
        (if falsy : bool then new_dict else mret media_linker_argument_map);
      link_media_reference media_linker target_clip media_linker_argument_map
  end.

End MediaLinker.

(** * Vocabulary of the statements *)

(** Unfolding the monad down to plain state passing. *)
Ltac run :=
  repeat progress
    (unfold mbind, M_bind, mret, M_ret, fmap, M_fmap, raise, try_except,
       get_world, emit, lift_world, py_not, new_dict;
     simpl).

(** The variable that names the process default linker. *)
Abbreviation DEFAULT_VAR := "OTIO_DEFAULT_MEDIA_LINKER" (only parsing).

(** The key under which [plugin_info_map] marks the default linker. *)
Abbreviation DEFAULT_FLAG := "** CURRENT DEFAULT MEDIA LINKER" (only parsing).

(** [nm] asks for the configured default: it is the [ForceDefaultLinker]
    policy, or empty, or absent. *)
Definition asks_for_default (nm : option string) : Prop :=
  nm = Some MediaLinkingPolicy.ForceDefaultLinker ∨ nm = Some "" ∨ nm = None.

#[global] Instance asks_for_default_dec (nm : option string) :
  Decision (asks_for_default nm).
Proof. unfold asks_for_default. apply _. Defined.

(** The names [available_media_linker_names] reports in world [w]. *)
Definition names_in (w : World) : list string :=
  (λ adp, py_str (name adp)) <$> media_linkers w.

(** The error [from_name] raises for a name the manifest does not know. *)
Definition not_supported (nm : string) (available : list string) : exn :=
  Exn NotSupportedError
      (Format "media linker not supported: {}, available: {}"
              [FStr nm; FList available]).

(** The state after [evs] have been logged on top of [st]. *)
Definition logged (st : State) (evs : list event) : State :=
  {| world := world st; log := log st ++ evs |}.

(** [d] is the one linker of the registry that goes by the name [n]. *)
Definition registered_under (w : World) (n : string) (d : MediaLinker) : Prop :=
  d ∈ media_linkers w ∧ name d = Some n ∧
  ∀ d', d' ∈ media_linkers w → name d' = Some n → d' = d.

(** The guarded manifest lookup that ends [from_name]: one lookup, and on
    failure one reading of the registry for the message. *)
Definition registry_lookup (nm : string) (st : State)
  : outcome (option MediaLinker) * State :=
  match find (λ thing, bool_decide (name thing = Some nm))
             (media_linkers (world st)) with
  | Some thing => (Return (Some thing), logged st [ManifestFromName nm])
  | None =>
      (Raise (not_supported nm (names_in (world st))),
       logged st [ManifestFromName nm; ManifestMediaLinkers])
  end.

(** The NameResolver in the words of the specification (4.1): the
    environment default replaces a requested name that is [ForceDefault] or
    empty or absent; any other name is used as it is; an empty or absent
    result means that no linking takes place. *)
Definition resolve (requestedName environmentDefault : option string)
  : option string :=
  let substituted :=
    match requestedName with
    | None => environmentDefault
    | Some r =>
        if bool_decide (r = MediaLinkingPolicy.ForceDefaultLinker ∨ r = "")
        then environmentDefault else Some r
    end in
  match substituted with
  | Some "" => None
  | other => other
  end.

(** The documentation merge in the words of the specification (4.3):
    descriptor documentation first, a blank line, then the entry point's
    documentation; a piece that is left out brings no separator. *)
Definition describe_doc (descriptor_doc : string) (entry_doc : option string)
  : string :=
  match entry_doc with
  | None | Some "" => descriptor_doc
  | Some f =>
      if bool_decide (descriptor_doc = "") then f
      else descriptor_doc +:+ nl +:+ nl +:+ f
  end.

(** The world after the display [{}] has been evaluated in [w]. *)
Definition with_new_dict (w : World) : World :=
  {| environ := environ w; media_linkers := media_linkers w;
     heap := <[fresh (dom (heap w)) := Dict ∅]> (heap w) |}.

(** What [x or {}] and [if not x: x = {}] leave in [x], and the world
    afterwards: a true [x] stays, a false one gives way to a new dictionary. *)
Definition defaulted (w : World) (v : value) : value * World :=
  if truthy (heap w) v then (v, w)
  else (VRef (fresh (dom (heap w))), with_new_dict w).

(** The argument that reaches the plugin through [linked_media_reference]
    has been defaulted twice: once by the function, once by the method. *)
Definition defaulted_twice (w : World) (v : value) : value * World :=
  defaulted (defaulted w v).2 (defaulted w v).1.

(** The keyword arguments the plugin's entry point is called with. *)
Definition link_kwargs (clip arg : value) : list (string * value) :=
  [("in_clip", clip); ("media_linker_argument_map", arg)].

(** [v] refers to a dictionary of world [w]. *)
Definition is_dict (w : World) (v : value) : Prop :=
  ∃ l m, v = VRef l ∧ heap w !! l = Some (Dict m).

(** [w'] is [w] with objects added to the heap at most. *)
Definition extends (w w' : World) : Prop :=
  environ w' = environ w ∧ media_linkers w' = media_linkers w ∧
  ∀ l o, heap w !! l = Some o → heap w' !! l = Some o.

(** One call of the plugin's [link_media_reference] on [clip] and [arg] in
    world [w], with [lg] logged before: the call is logged, and its outcome
    and the world it leaves are the result. *)
Definition invoke `{PythonPlugin} (self : MediaLinker) (clip arg : value)
    (w : World) (lg : list event) : outcome value * State :=
  let '(r, w') :=
    _execute_function self "link_media_reference" (link_kwargs clip arg) w in
  (r, {| world := w';
         log := lg ++ [ExecuteFunction self "link_media_reference"
                         (link_kwargs clip arg)] |}).

(** ** A concrete installation

    A registry with three linkers, the plugin code behind them, and a heap
    holding a clip and two argument maps.  [studio-v1] links every clip to
    the media reference object at location 4; the other linkers cannot link
    anything and say so with a child class of [CannotLinkMediaError]. *)
Module Scenario.

Definition studio : MediaLinker :=
  {| name := Some "studio-v1"; execution_scope := Some "in process";
     filepath := Some "studio_linker.py" |}.

Definition offline : MediaLinker :=
  {| name := Some "offline"; execution_scope := Some "in process";
     filepath := Some "offline_linker.py" |}.

Definition unnamed : MediaLinker :=
  {| name := Some ""; execution_scope := None; filepath := None |}.

Definition MissingMediaError : exc_class :=
  Subclass "MissingMediaError" CannotLinkMediaError.

Definition missing_media : exn :=
  Exn MissingMediaError (Format "no media for this clip" []).

Definition plugins : PythonPlugin := {|
  _execute_function self func_name kwargs w :=
    if bool_decide (self = studio) then (Return (VRef 4%positive), w)
    else (Raise missing_media, w);
  super_plugin_info_map self w :=
    (Return {[ "name" := VStr (py_str (name self));
               "doc" := VStr (if bool_decide (self = studio)
                              then "Studio media linker." else "") ]}, w);
  getdoc_link_media_reference self w :=
    (Return (if bool_decide (self = unnamed) then None
             else Some "Link the clip."), w);
|}.

Definition clip : value := VRef 1%positive.

(** [{"root": "/mnt/media"}] *)
Definition root_args : value := VRef 2%positive.

(** [{}], an empty dictionary of the caller's. *)
Definition empty_args : value := VRef 3%positive.

Definition objects : gmap loc object :=
  {[ 1%positive := Instance "Clip" ∅;
     2%positive := Dict {[ "root" := VStr "/mnt/media" ]};
     3%positive := Dict ∅;
     4%positive := Instance "ExternalReference" ∅ ]}.

Definition installation (env : gmap string string)
    (registry : list MediaLinker) : State :=
  {| world := {| environ := env; media_linkers := registry;
                 heap := objects |};
     log := [] |}.

Definition registry : list MediaLinker := [studio; offline; unnamed].

(** The installation with no default configured, with ["studio-v1"] as the
    default, with the variable set but empty, and with nothing registered. *)
Definition unset : State := installation ∅ registry.
Definition default_studio : State :=
  installation {[ "OTIO_DEFAULT_MEDIA_LINKER" := "studio-v1" ]} registry.
Definition default_empty : State :=
  installation {[ "OTIO_DEFAULT_MEDIA_LINKER" := "" ]} registry.
Definition bare : State := installation ∅ [].

End Scenario.

(** ** Further installations

    A default that names no registered linker, a registry with a linker
    that was given no name, and base classes whose description of the plugin
    is incomplete, ill-typed or failing. *)
Module Cases.

Definition nameless : MediaLinker :=
  {| name := None; execution_scope := None; filepath := None |}.

Definition default_ghost : State :=
  Scenario.installation {[ "OTIO_DEFAULT_MEDIA_LINKER" := "ghost" ]}
    Scenario.registry.

Definition with_nameless : State :=
  Scenario.installation ∅ [Scenario.studio; nameless].

Definition named_only : State :=
  Scenario.installation ∅ [Scenario.studio; Scenario.offline].

(** The base class's map has no ["doc"] entry. *)
Definition no_doc_entry : PythonPlugin := {|
  _execute_function self func_name kwargs w := (Return VNone, w);
  super_plugin_info_map self w :=
    (Return {[ "name" := VStr (py_str (name self)) ]}, w);
  getdoc_link_media_reference self w := (Return (Some "Link the clip."), w);
|}.

(** The plugin's module has no docstring: the ["doc"] entry is [None]. *)
Definition none_doc_entry : PythonPlugin := {|
  _execute_function self func_name kwargs w := (Return VNone, w);
  super_plugin_info_map self w :=
    (Return {[ "name" := VStr (py_str (name self)); "doc" := VNone ]}, w);
  getdoc_link_media_reference self w := (Return (Some "Link the clip."), w);
|}.

(** The plugin's module cannot be loaded. *)
Definition import_error : exn :=
  Exn (OtherError "ImportError") (Format "No module named {}" [FStr "studio"]).

Definition failing_base : PythonPlugin := {|
  _execute_function self func_name kwargs w := (Raise import_error, w);
  super_plugin_info_map self w := (Raise import_error, w);
  getdoc_link_media_reference self w := (Return None, w);
|}.

(** The module loads for the base class, but has no [link_media_reference]. *)
Definition attribute_error : exn :=
  Exn (OtherError "AttributeError")
      (Format "module has no attribute {}" [FStr "link_media_reference"]).

Definition no_entry_point : PythonPlugin := {|
  _execute_function self func_name kwargs w := (Raise attribute_error, w);
  super_plugin_info_map self w :=
    (Return {[ "doc" := VStr "Studio media linker." ]}, w);
  getdoc_link_media_reference self w := (Raise attribute_error, w);
|}.

End Cases.

(** * Properties *)

(** ** The model at work *)

Example issubclass_child :
  issubclass Scenario.MissingMediaError CannotLinkMediaError = true.
Proof. reflexivity. Qed.

Example issubclass_unrelated :
  issubclass NotSupportedError CannotLinkMediaError = false.
Proof. reflexivity. Qed.

Example join_blank_line :
  join nl ["a"; ""; "b"] = "a" +:+ nl +:+ nl +:+ "b".
Proof. reflexivity. Qed.

Example resolve_keeps_do_not_link :
  resolve (Some MediaLinkingPolicy.DoNotLinkMedia) (Some "studio-v1") =
    Some MediaLinkingPolicy.DoNotLinkMedia.
Proof. reflexivity. Qed.

Example resolve_force_default :
  resolve (Some MediaLinkingPolicy.ForceDefaultLinker) (Some "studio-v1") =
    Some "studio-v1".
Proof. reflexivity. Qed.

Example available_names :
  (available_media_linker_names Scenario.unset).1 =
    Return ["studio-v1"; "offline"; ""].
Proof. reflexivity. Qed.

(** An empty dictionary of the caller's is not the one the plugin gets:
    the function makes a new one (location 5), the method another
    (location 6). *)
Example studio_links_with_empty_args :
  let run :=
    linked_media_reference (H := Scenario.plugins) Scenario.clip
      (Some "studio-v1") Scenario.empty_args Scenario.unset in
  run.1 = Return (VRef 4%positive) ∧
  log run.2 =
    [ManifestFromName "studio-v1";
     ExecuteFunction Scenario.studio "link_media_reference"
       (link_kwargs Scenario.clip (VRef 6%positive))] ∧
  heap (world run.2) !! 3%positive = Some (Dict ∅) ∧
  heap (world run.2) !! 5%positive = Some (Dict ∅) ∧
  heap (world run.2) !! 6%positive = Some (Dict ∅).
Proof. repeat split. Qed.

(** ** The registry *)

Lemma logged_nil (st : State) : logged st [] = st.
Proof. destruct st. unfold logged. simpl. by rewrite app_nil_r. Qed.

Lemma find_registered (w : World) (n : string) (d : MediaLinker) :
  registered_under w n d →
  find (λ thing, bool_decide (name thing = Some n)) (media_linkers w) = Some d.
Proof.
  unfold registered_under. generalize (media_linkers w) as l.
  induction l as [|x l IH]; intros (Hin & Hn & Huniq).
  - by apply elem_of_nil in Hin.
  - simpl. case_bool_decide as Hx.
    + f_equal. apply Huniq; [left | done].
    + apply IH. split_and!; [| done |].
      * apply elem_of_cons in Hin as [-> | Hin]; [congruence | done].
      * intros d' Hd'. apply Huniq. by right.
Qed.

Lemma find_unregistered (l : list MediaLinker) (n : string) :
  (∀ d, d ∈ l → name d ≠ Some n) →
  find (λ thing, bool_decide (name thing = Some n)) l = None.
Proof.
  induction l as [|x l IH]; intros Hno; [done |].
  simpl. case_bool_decide as Hx.
  - exfalso. eapply Hno; [left | done].
  - apply IH. intros d Hd. apply Hno. by right.
Qed.

Lemma registry_lookup_registered (n : string) (d : MediaLinker) (st : State) :
  registered_under (world st) n d →
  registry_lookup n st = (Return (Some d), logged st [ManifestFromName n]).
Proof. intros Hd. unfold registry_lookup. by rewrite (find_registered _ _ _ Hd). Qed.

Lemma registry_lookup_unregistered (n : string) (st : State) :
  (∀ d, d ∈ media_linkers (world st) → name d ≠ Some n) →
  registry_lookup n st =
    (Raise (not_supported n (names_in (world st))),
     logged st [ManifestFromName n; ManifestMediaLinkers]).
Proof. intros Hno. unfold registry_lookup. by rewrite find_unregistered. Qed.

Lemma registry_lookup_world (n : string) (st st' : State) r :
  registry_lookup n st = (r, st') → world st' = world st.
Proof.
  unfold registry_lookup. destruct (find _ _); intros [= <- <-]; done.
Qed.

(** Whatever the lookup raises is the module's own [NotSupportedError]. *)
Lemma registry_lookup_raises (n : string) (st st' : State) (e : exn) :
  registry_lookup n st = (Raise e, st') → exn_class e = NotSupportedError.
Proof.
  unfold registry_lookup. destruct (find _ _); intros [= <- <-]; done.
Qed.

(** ** Name resolution *)

(** [from_name] on a name that does not ask for the default goes to the
    manifest with that very name. *)
Lemma from_name_explicit (n : string) (st : State) :
  ¬ asks_for_default (Some n) →
  from_name (Some n) st = registry_lookup n st.
Proof.
  intros Hn. unfold asks_for_default in Hn.
  assert (n ≠ MediaLinkingPolicy.ForceDefaultLinker) as Hd by naive_solver.
  assert (n ≠ "") as He by naive_solver.
  unfold from_name, registry_lookup.
  rewrite bool_decide_eq_false_2 by congruence.
  unfold str_truthy. rewrite (bool_decide_eq_false_2 (n = "")) by done.
  unfold Manifest_from_name, available_media_linker_names,
    ActiveManifest_media_linkers, names_in, not_supported, logged.
  run. rewrite (bool_decide_eq_false_2 (n = "")) by done. run.
  destruct (find _ _); [done |].
  simpl. by rewrite <- app_assoc.
Qed.

(** [from_name] on a request for the default reads the environment; an
    unset or empty variable means no linker. *)
Lemma from_name_default (nm : option string) (st : State) :
  asks_for_default nm →
  from_name nm st =
    match environ (world st) !! DEFAULT_VAR with
    | Some e => if bool_decide (e = "") then (Return None, st)
                else registry_lookup e st
    | None => (Return None, st)
    end.
Proof.
  intros Hnm. unfold from_name, registry_lookup.
  assert (bool_decide (nm = Some MediaLinkingPolicy.ForceDefaultLinker)
          || negb (str_truthy nm) = true) as ->.
  { destruct Hnm as [-> | [-> | ->]]; done. }
  unfold os_environ_get. run.
  destruct (environ (world st) !! _) as [e|]; [| done].
  unfold str_truthy. case_bool_decide; [done |].
  unfold Manifest_from_name, available_media_linker_names,
    ActiveManifest_media_linkers, names_in, not_supported, logged.
  run.
  destruct (find _ _); [done |].
  simpl. by rewrite <- app_assoc.
Qed.

(** Resolving a name never changes the world, only the log. *)
Lemma from_name_world (nm : option string) (st st' : State) r :
  from_name nm st = (r, st') → world st' = world st.
Proof.
  destruct (decide (asks_for_default nm)) as [Hd | Hd].
  - rewrite from_name_default by done.
    destruct (environ (world st) !! _) as [e|].
    + case_bool_decide; [by intros [= <- <-] | apply registry_lookup_world].
    + by intros [= <- <-].
  - destruct nm as [n|]; [| exfalso; apply Hd; by do 2 right].
    rewrite from_name_explicit by done. apply registry_lookup_world.
Qed.

Lemma from_name_raises (nm : option string) (st st' : State) (e : exn) :
  from_name nm st = (Raise e, st') → exn_class e = NotSupportedError.
Proof.
  destruct (decide (asks_for_default nm)) as [Hd | Hd].
  - rewrite from_name_default by done.
    destruct (environ (world st) !! _) as [v|]; [| done].
    case_bool_decide; [done | apply registry_lookup_raises].
  - destruct nm as [n|]; [| exfalso; apply Hd; by do 2 right].
    rewrite from_name_explicit by done. apply registry_lookup_raises.
Qed.

(** ** Defaulting the argument map *)

Lemma fresh_unused (w : World) : heap w !! fresh (dom (heap w)) = None.
Proof. apply not_elem_of_dom, is_fresh. Qed.

Lemma with_new_dict_lookup (w : World) :
  heap (with_new_dict w) !! fresh (dom (heap w)) = Some (Dict ∅).
Proof. unfold with_new_dict. simpl. apply lookup_insert_eq. Qed.

Lemma extends_refl (w : World) : extends w w.
Proof. by unfold extends. Qed.

Lemma extends_trans (w1 w2 w3 : World) :
  extends w1 w2 → extends w2 w3 → extends w1 w3.
Proof.
  intros (He1 & Hm1 & Hh1) (He2 & Hm2 & Hh2). unfold extends.
  split_and!; [congruence | congruence | eauto].
Qed.

Lemma with_new_dict_extends (w : World) : extends w (with_new_dict w).
Proof.
  unfold extends, with_new_dict. simpl. split_and!; [done | done |].
  intros l o Hl. rewrite lookup_insert_ne; [done |].
  intros <-. by rewrite fresh_unused in Hl.
Qed.

Lemma defaulted_truthy (w : World) (v : value) :
  truthy (heap w) v = true → defaulted w v = (v, w).
Proof. unfold defaulted. by intros ->. Qed.

Lemma defaulted_falsy (w : World) (v : value) :
  truthy (heap w) v = false →
  defaulted w v = (VRef (fresh (dom (heap w))), with_new_dict w).
Proof. unfold defaulted. by intros ->. Qed.

(** A dictionary that has just been created is empty, hence false. *)
Lemma new_dict_falsy (w : World) :
  truthy (heap (with_new_dict w)) (VRef (fresh (dom (heap w)))) = false.
Proof. simpl. by rewrite lookup_insert_eq. Qed.

Lemma defaulted_twice_truthy (w : World) (v : value) :
  truthy (heap w) v = true → defaulted_twice w v = (v, w).
Proof.
  intros Hv. unfold defaulted_twice. rewrite (defaulted_truthy _ _ Hv).
  simpl. by apply defaulted_truthy.
Qed.

Lemma defaulted_twice_falsy (w : World) (v : value) :
  truthy (heap w) v = false →
  defaulted_twice w v =
    (VRef (fresh (dom (heap (with_new_dict w)))),
     with_new_dict (with_new_dict w)).
Proof.
  intros Hv. unfold defaulted_twice. rewrite (defaulted_falsy _ _ Hv).
  simpl fst. simpl snd. apply defaulted_falsy, new_dict_falsy.
Qed.

(** A false argument map reaches the plugin as a dictionary that did not
    exist before the call and is empty. *)
Lemma defaulted_falsy_new (w : World) (v : value) :
  truthy (heap w) v = false →
  ∃ l, (defaulted w v).1 = VRef l ∧ heap w !! l = None ∧
       heap (defaulted w v).2 !! l = Some (Dict ∅) ∧
       extends w (defaulted w v).2.
Proof.
  intros Hv. rewrite (defaulted_falsy _ _ Hv). simpl.
  eexists. split_and!; [done | apply fresh_unused | apply lookup_insert_eq |].
  apply with_new_dict_extends.
Qed.

Lemma defaulted_twice_falsy_new (w : World) (v : value) :
  truthy (heap w) v = false →
  ∃ l, (defaulted_twice w v).1 = VRef l ∧ heap w !! l = None ∧
       heap (defaulted_twice w v).2 !! l = Some (Dict ∅) ∧
       extends w (defaulted_twice w v).2.
Proof.
  intros Hv. rewrite (defaulted_twice_falsy _ _ Hv).
  exists (fresh (dom (heap (with_new_dict w)))).
  split_and!; [done | | apply with_new_dict_lookup |].
  - destruct (heap w !! fresh (dom (heap (with_new_dict w)))) as [o|] eqn:Ho;
      [| done].
    pose proof (with_new_dict_extends w) as (_ & _ & Hext).
    apply Hext in Ho. by rewrite fresh_unused in Ho.
  - eapply extends_trans; apply with_new_dict_extends.
Qed.

(** ** Invocation *)

Section Invocation.
Context `{PythonPlugin}.

Lemma link_media_reference_run (self : MediaLinker) (clip v : value)
    (st : State) :
  link_media_reference self clip v st =
    invoke self clip (defaulted (world st) v).1 (defaulted (world st) v).2
      (log st).
Proof.
  unfold link_media_reference, execute_function, invoke, defaulted, link_kwargs.
  run. destruct (truthy _ _); run; by destruct (_execute_function _ _ _ _).
Qed.

Lemma linked_media_reference_run (clip : value) (nm : option string)
    (v : value) (st : State) :
  linked_media_reference clip nm v st =
    match from_name nm st with
    | (Return None, st1) => (Return clip, st1)
    | (Return (Some d), st1) =>
        invoke d clip (defaulted_twice (world st1) v).1
          (defaulted_twice (world st1) v).2 (log st1)
    | (Raise e, st1) => (Raise e, st1)
    end.
Proof.
  unfold linked_media_reference. run.
  destruct (from_name nm st) as [[[d|]|e] st1]; [| done | done].
  run. unfold defaulted_twice.
  destruct (truthy (heap (world st1)) v) eqn:Hv; simpl;
    rewrite link_media_reference_run.
  - rewrite (defaulted_truthy _ _ Hv). simpl.
    by rewrite (defaulted_truthy _ _ Hv).
  - by rewrite (defaulted_falsy _ _ Hv).
Qed.

(** The outcome of an invocation is the plugin's outcome. *)
Lemma invoke_outcome (self : MediaLinker) (clip arg : value) (w : World)
    (lg : list event) :
  (invoke self clip arg w lg).1 =
    (_execute_function self "link_media_reference" (link_kwargs clip arg) w).1.
Proof. unfold invoke. by destruct (_execute_function _ _ _ _). Qed.

(** A resolved linker is invoked, in the world [from_name] was called in. *)
Lemma linked_media_reference_resolved (clip : value) (nm : option string)
    (v : value) (st st1 : State) (d : MediaLinker) :
  from_name nm st = (Return (Some d), st1) →
  linked_media_reference clip nm v st =
    invoke d clip (defaulted_twice (world st) v).1
      (defaulted_twice (world st) v).2 (log st1).
Proof.
  intros Hfn. rewrite linked_media_reference_run, Hfn.
  by rewrite (from_name_world _ _ _ _ Hfn).
Qed.

End Invocation.

(** * The claims *)

(** C1 (the code departs from the claim).  The claim has
    [linked_media_reference(c, DoNotLinkMedia, {})] hand back [c] at once,
    with no lookup.  The code has no case for the [DoNotLinkMedia] policy:
    [from_name] passes the sentinel to the manifest like any plugin name, and
    in a registry without a plugin of that name the call raises
    [NotSupportedError] after one lookup and one listing of the registry. *)
Theorem do_not_link_media_is_looked_up `{PythonPlugin} :
  (∀ st,
     from_name (Some MediaLinkingPolicy.DoNotLinkMedia) st =
       registry_lookup MediaLinkingPolicy.DoNotLinkMedia st) ∧
  (∀ clip v env h lg,
     let st := {| world := {| environ := env; media_linkers := []; heap := h |};
                  log := lg |} in
     linked_media_reference clip (Some MediaLinkingPolicy.DoNotLinkMedia) v st =
       (Raise (not_supported MediaLinkingPolicy.DoNotLinkMedia []),
        logged st [ManifestFromName MediaLinkingPolicy.DoNotLinkMedia;
                   ManifestMediaLinkers])).
Proof.
  assert (¬ asks_for_default (Some MediaLinkingPolicy.DoNotLinkMedia)) as Hn.
  { unfold asks_for_default. intros [[=] | [[=] | [=]]]. }
  split.
  - intros st. by apply from_name_explicit.
  - intros clip v env h lg st.
    rewrite linked_media_reference_run, from_name_explicit by done.
    rewrite registry_lookup_unregistered; [done |].
    intros d Hd. by apply elem_of_nil in Hd.
Qed.

(** C2.  For a name [n] under which one linker [d] is registered, a clip and
    an argument map (a dictionary [m] at [l]), [linked_media_reference]
    looks the name up and calls [d]'s [link_media_reference] entry point
    once, and no other: it passes the clip as it was given and a dictionary
    with the contents [m] (the caller's own object when [m] is not empty),
    in a world in which nothing that existed has changed, and its outcome
    and final world are the ones of that call. *)
Theorem registered_linker_is_invoked_once `{PythonPlugin}
    (clip : value) (n : string) (d : MediaLinker) (l : loc)
    (m : gmap string value) (st : State) :
  ¬ asks_for_default (Some n) →
  registered_under (world st) n d →
  heap (world st) !! l = Some (Dict m) →
  ∃ l' w',
    extends (world st) w' ∧
    heap w' !! l' = Some (Dict m) ∧
    (m ≠ ∅ → l' = l ∧ w' = world st) ∧
    let kwargs :=
      [("in_clip", clip); ("media_linker_argument_map", VRef l')] in
    let run := linked_media_reference clip (Some n) (VRef l) st in
    (run.1, world run.2) =
      _execute_function d "link_media_reference" kwargs w' ∧
    log run.2 =
      log st ++ [ManifestFromName n;
                 ExecuteFunction d "link_media_reference" kwargs].
Proof.
  intros Hn Hd Hl.
  assert (linked_media_reference clip (Some n) (VRef l) st =
          invoke d clip (defaulted_twice (world st) (VRef l)).1
            (defaulted_twice (world st) (VRef l)).2
            (log st ++ [ManifestFromName n])) as Hrun.
  { apply (linked_media_reference_resolved _ _ _ _
             (logged st [ManifestFromName n])).
    rewrite from_name_explicit by done.
    by apply registry_lookup_registered. }
  assert (∃ l' w', defaulted_twice (world st) (VRef l) = (VRef l', w') ∧
            extends (world st) w' ∧ heap w' !! l' = Some (Dict m) ∧
            (m ≠ ∅ → l' = l ∧ w' = world st)) as (l' & w' & Hdef & He & Hl' & Hsame).
  { destruct (decide (m = ∅)) as [Hm | Hm].
    - assert (truthy (heap (world st)) (VRef l) = false) as Htruth.
      { simpl. by rewrite Hl, bool_decide_eq_true_2. }
      destruct (defaulted_twice_falsy_new _ _ Htruth) as (l' & H1 & _ & H3 & H4).
      exists l', (defaulted_twice (world st) (VRef l)).2.
      split_and!; [| done | by subst m | done].
      rewrite <- H1. by destruct (defaulted_twice _ _).
    - assert (truthy (heap (world st)) (VRef l) = true) as Htruth.
      { simpl. by rewrite Hl, bool_decide_eq_false_2. }
      exists l, (world st).
      split_and!; [by apply defaulted_twice_truthy | apply extends_refl
                  | done | done]. }
  exists l', w'. split_and!; [done | done | done |].
  cbv zeta. rewrite Hrun, Hdef. unfold invoke, link_kwargs. simpl.
  destruct (_execute_function _ _ _ _) as [r w'']. simpl.
  split; [done |]. by rewrite <- app_assoc.
Qed.

Lemma registered_linker_is_invoked_once_witness :
  ∃ l' w',
    extends (world Scenario.unset) w' ∧
    heap w' !! l' = Some (Dict {[ "root" := VStr "/mnt/media" ]}) ∧
    ({[ "root" := VStr "/mnt/media" ]} ≠ (∅ : gmap string value) →
     l' = 2%positive ∧ w' = world Scenario.unset) ∧
    let kwargs :=
      [("in_clip", Scenario.clip); ("media_linker_argument_map", VRef l')] in
    let run :=
      linked_media_reference (H := Scenario.plugins) Scenario.clip
        (Some "studio-v1") Scenario.root_args Scenario.unset in
    (run.1, world run.2) =
      _execute_function (PythonPlugin := Scenario.plugins) Scenario.studio
        "link_media_reference" kwargs w' ∧
    log run.2 =
      log Scenario.unset ++
        [ManifestFromName "studio-v1";
         ExecuteFunction Scenario.studio "link_media_reference" kwargs].
Proof.
  apply (registered_linker_is_invoked_once (H := Scenario.plugins)
           Scenario.clip "studio-v1" Scenario.studio 2%positive
           {[ "root" := VStr "/mnt/media" ]} Scenario.unset).
  - unfold asks_for_default. intros [[=] | [[=] | [=]]].
  - unfold registered_under. simpl. split_and!; [by left | done |].
    intros d' Hd' Hn.
    repeat (apply elem_of_cons in Hd' as [-> | Hd']; [done || discriminate |]).
    by apply elem_of_nil in Hd'.
  - reflexivity.
Defined.

(** C3.  A name that does not ask for the default and that no registered
    linker bears makes [linked_media_reference] raise [NotSupportedError];
    the message is built from that name and from the names of the linkers
    that the registry holds when the call is made: the registry is read
    once for the lookup and once more, after it failed, for the names. *)
Theorem unregistered_name_raises_not_supported `{PythonPlugin}
    (clip : value) (n : string) (v : value) (st : State) :
  ¬ asks_for_default (Some n) →
  (∀ d, d ∈ media_linkers (world st) → name d ≠ Some n) →
  linked_media_reference clip (Some n) v st =
    (Raise (not_supported n (names_in (world st))),
     logged st [ManifestFromName n; ManifestMediaLinkers]).
Proof.
  intros Hn Hno.
  rewrite linked_media_reference_run, from_name_explicit by done.
  by rewrite registry_lookup_unregistered.
Qed.

Lemma unregistered_name_raises_not_supported_witness :
  linked_media_reference (H := Scenario.plugins) Scenario.clip
    (Some "anything") Scenario.empty_args Scenario.bare =
    (Raise (not_supported "anything" []),
     logged Scenario.bare
       [ManifestFromName "anything"; ManifestMediaLinkers]).
Proof.
  apply (unregistered_name_raises_not_supported
           (H := Scenario.plugins) Scenario.clip "anything"
           Scenario.empty_args Scenario.bare).
  - unfold asks_for_default. intros [[=] | [[=] | [=]]].
  - intros d Hd. simpl in Hd. by apply elem_of_nil in Hd.
Defined.

(** C4.  When the requested name asks for the default (the [ForceDefault]
    policy, or no name) and the environment variable is not set,
    [linked_media_reference] returns the clip it was given and leaves the
    state as it found it: nothing is looked up, nothing is logged, nothing
    is raised. *)
Theorem no_default_returns_clip `{PythonPlugin}
    (clip : value) (nm : option string) (v : value) (st : State) :
  asks_for_default nm →
  environ (world st) !! DEFAULT_VAR = None →
  linked_media_reference clip nm v st = (Return clip, st).
Proof.
  intros Hnm Henv.
  by rewrite linked_media_reference_run, from_name_default, Henv.
Qed.

Lemma no_default_returns_clip_witness :
  linked_media_reference (H := Scenario.plugins) Scenario.clip
    (Some MediaLinkingPolicy.ForceDefaultLinker) Scenario.empty_args
    Scenario.unset =
    (Return Scenario.clip, Scenario.unset).
Proof.
  apply (no_default_returns_clip (H := Scenario.plugins)).
  - by left.
  - reflexivity.
Defined.

(** C5.  [from_name] puts the environment default in place of the requested
    name exactly when that name is the [ForceDefault] policy or is empty or
    absent: it agrees with the specification's resolver followed by the
    registry lookup; a request for the default is answered from the
    environment variable alone; any other name goes to the registry as it
    is, whatever the environment holds.  Hence, with the variable set to the
    name of a registered linker (["studio-v1"], say),
    [linked_media_reference(clip, ForceDefault, args)] looks up that name
    and invokes that linker. *)
Theorem default_substituted_exactly_when_asked `{PythonPlugin} (st : State) :
  (∀ nm,
     from_name nm st =
       match resolve nm (environ (world st) !! DEFAULT_VAR) with
       | Some n => registry_lookup n st
       | None => (Return None, st)
       end) ∧
  (∀ nm,
     asks_for_default nm →
     from_name nm st =
       match environ (world st) !! DEFAULT_VAR with
       | Some e => if bool_decide (e = "") then (Return None, st)
                   else registry_lookup e st
       | None => (Return None, st)
       end) ∧
  (∀ n,
     ¬ asks_for_default (Some n) →
     from_name (Some n) st = registry_lookup n st) ∧
  (∀ clip v e d,
     environ (world st) !! DEFAULT_VAR = Some e → e ≠ "" →
     registered_under (world st) e d →
     linked_media_reference clip
       (Some MediaLinkingPolicy.ForceDefaultLinker) v st =
       invoke d clip (defaulted_twice (world st) v).1
         (defaulted_twice (world st) v).2 (log st ++ [ManifestFromName e])).
Proof.
  split_and!.
  - intros nm. destruct (decide (asks_for_default nm)) as [Hd | Hd].
    + rewrite from_name_default by done.
      assert (resolve nm (environ (world st) !! DEFAULT_VAR) =
              resolve None (environ (world st) !! DEFAULT_VAR)) as ->.
      { unfold resolve. cbv zeta.
        destruct Hd as [-> | [-> | ->]]; [| | reflexivity].
        - by rewrite bool_decide_eq_true_2 by (by left).
        - by rewrite bool_decide_eq_true_2 by (by right). }
      unfold resolve. cbv zeta.
      destruct (environ (world st) !! _) as [e|]; [| done].
      case_bool_decide as He; [by subst e |]. by destruct e.
    + destruct nm as [n|]; [| exfalso; apply Hd; by do 2 right].
      rewrite from_name_explicit by done.
      unfold resolve. rewrite bool_decide_eq_false_2.
      * destruct n; [| done]. exfalso. apply Hd. right. by left.
      * intros [-> | ->]; apply Hd; [by left | right; by left].
  - intros nm Hd. by apply from_name_default.
  - intros n Hn. by apply from_name_explicit.
  - intros clip v e d Henv He Hd.
    apply (linked_media_reference_resolved _ _ _ _
             (logged st [ManifestFromName e])).
    rewrite from_name_default by (by left).
    rewrite Henv, bool_decide_eq_false_2 by done.
    by apply registry_lookup_registered.
Qed.

Lemma default_substituted_exactly_when_asked_witness :
  linked_media_reference (H := Scenario.plugins) Scenario.clip
    (Some MediaLinkingPolicy.ForceDefaultLinker) Scenario.root_args
    Scenario.default_studio =
    (Return (VRef 4%positive),
     logged Scenario.default_studio
       [ManifestFromName "studio-v1";
        ExecuteFunction Scenario.studio "link_media_reference"
          (link_kwargs Scenario.clip Scenario.root_args)]).
Proof.
  pose proof (default_substituted_exactly_when_asked
                (H := Scenario.plugins) Scenario.default_studio)
    as (_ & _ & _ & Hrun).
  rewrite (Hrun Scenario.clip Scenario.root_args "studio-v1" Scenario.studio).
  - reflexivity.
  - reflexivity.
  - discriminate.
  - unfold registered_under. simpl. split_and!; [by left | done |].
    intros d' Hd' Hn.
    repeat (apply elem_of_cons in Hd' as [-> | Hd']; [done || discriminate |]).
    by apply elem_of_nil in Hd'.
Defined.

(** C6, as the code has it.  [default_media_linker] raises
    [NoDefaultMediaLinkerError] exactly when the environment variable is not
    set; when it is set the value is returned as it is, the empty string
    included.  Either way the state is left alone. *)
Theorem default_media_linker_strict (st : State) :
  default_media_linker st =
    match environ (world st) !! DEFAULT_VAR with
    | Some v => (Return v, st)
    | None =>
        (Raise (Exn NoDefaultMediaLinkerError
                  (Format "No default Media Linker set in $OTIO_DEFAULT_MEDIA_LINKER"
                          [])),
         st)
    end.
Proof.
  unfold default_media_linker, os_environ_getitem. run.
  by destruct (environ (world st) !! _).
Qed.

(** C6, against the claim as written: with the variable set to the empty
    string the accessor does not fail as it does for an absent variable; it
    returns the empty string. *)
Lemma default_media_linker_empty_value :
  environ (world Scenario.default_empty) !! DEFAULT_VAR = Some "" ∧
  default_media_linker Scenario.default_empty =
    (Return "", Scenario.default_empty) ∧
  ¬ ∃ e, (default_media_linker Scenario.default_empty).1 = Raise e.
Proof.
  split_and!; [reflexivity | reflexivity |].
  intros [e He]. vm_compute in He. discriminate.
Qed.

(** C7.  A failure of the plugin's entry point is never caught on the way
    out.  The method [link_media_reference] raises [e] exactly when the
    plugin's entry point, called on the clip and the defaulted argument map,
    raises [e]; once a linker has been resolved the same holds of
    [linked_media_reference]; and whenever [linked_media_reference] raises
    an instance of [CannotLinkMediaError] or of a class derived from it, a
    linker had been resolved and it was its entry point that raised that
    very exception: the module raises none of its own. *)
Theorem plugin_failure_propagates `{PythonPlugin}
    (clip v : value) (st : State) (e : exn) :
  (∀ self,
     (link_media_reference self clip v st).1 = Raise e ↔
     (_execute_function self "link_media_reference"
        (link_kwargs clip (defaulted (world st) v).1)
        (defaulted (world st) v).2).1 = Raise e) ∧
  (∀ nm d st1,
     from_name nm st = (Return (Some d), st1) →
     (linked_media_reference clip nm v st).1 = Raise e ↔
     (_execute_function d "link_media_reference"
        (link_kwargs clip (defaulted_twice (world st) v).1)
        (defaulted_twice (world st) v).2).1 = Raise e) ∧
  (∀ nm,
     isinstance e CannotLinkMediaError = true →
     (linked_media_reference clip nm v st).1 = Raise e →
     ∃ d st1,
       from_name nm st = (Return (Some d), st1) ∧
       (_execute_function d "link_media_reference"
          (link_kwargs clip (defaulted_twice (world st) v).1)
          (defaulted_twice (world st) v).2).1 = Raise e).
Proof.
  split_and!.
  - intros self. by rewrite link_media_reference_run, invoke_outcome.
  - intros nm d st1 Hfn.
    by rewrite (linked_media_reference_resolved _ _ _ _ _ _ Hfn),
      invoke_outcome.
  - intros nm Hcls Hraise.
    rewrite linked_media_reference_run in Hraise.
    destruct (from_name nm st) as [[[d|]|e0] st1] eqn:Hfn.
    + exists d, st1. split; [done |].
      rewrite invoke_outcome in Hraise.
      by rewrite <- (from_name_world _ _ _ _ Hfn).
    + done.
    + simpl in Hraise. injection Hraise as ->.
      apply from_name_raises in Hfn.
      unfold isinstance in Hcls. by rewrite Hfn in Hcls.
Qed.

Lemma plugin_failure_propagates_witness :
  (linked_media_reference (H := Scenario.plugins) Scenario.clip
     (Some "offline") Scenario.root_args Scenario.unset).1 =
    Raise Scenario.missing_media.
Proof.
  apply (proj1 (proj2 (plugin_failure_propagates (H := Scenario.plugins)
                         Scenario.clip Scenario.root_args Scenario.unset
                         Scenario.missing_media))
           (Some "offline") Scenario.offline
           (logged Scenario.unset [ManifestFromName "offline"])).
  - reflexivity.
  - reflexivity.
Defined.

(** C8, as the code has it.  Where the base class describes the plugin with
    a documentation string [doc], [plugin_info_map] keeps [doc] when the
    entry point has no documentation or an empty one (no separator is
    added), and otherwise stores [doc], a blank line and the entry point's
    documentation, in this order.  It sets the flag
    ["** CURRENT DEFAULT MEDIA LINKER"] to [True] exactly when the linker's
    name equals the value of the environment variable, read as the empty
    string when not set; when the names differ it leaves the key as the
    base class gave it.  Every other entry is the base class's. *)
Theorem plugin_info_map_merges_doc_and_flags_default `{PythonPlugin}
    (self : MediaLinker) (st : State) (info : gmap string value)
    (doc : string) (fn_doc : option string) (w1 w2 : World) :
  super_plugin_info_map self (world st) = (Return info, w1) →
  getdoc_link_media_reference self w1 = (Return fn_doc, w2) →
  info !! "doc" = Some (VStr doc) →
  ∃ result,
    plugin_info_map self st = (Return result, {| world := w2; log := log st |}) ∧
    result !! "doc" =
      Some (VStr match fn_doc with
                 | None | Some "" => doc
                 | Some f => doc +:+ nl +:+ nl +:+ f
                 end) ∧
    result !! DEFAULT_FLAG =
      (if bool_decide (name self = Some (default "" (environ w2 !! DEFAULT_VAR)))
       then Some (VBool true) else info !! DEFAULT_FLAG) ∧
    ∀ k, k ≠ "doc" → k ≠ DEFAULT_FLAG → result !! k = info !! k.
Proof.
  intros Hsuper Hgetdoc Hdoc.
  unfold plugin_info_map, is_default_linker, os_environ_get. run.
  rewrite Hsuper. simpl. rewrite Hgetdoc. simpl.
  assert (∀ w : World,
            bool_decide (match environ w !! DEFAULT_VAR with
                         | Some v => Some v
                         | None => Some ""
                         end = name self) =
            bool_decide
              (name self = Some (default "" (environ w !! DEFAULT_VAR))))
    as Hflag.
  { intros w. destruct (environ w !! _); simpl;
      apply bool_decide_ext; naive_solver. }
  destruct fn_doc as [[|a f]|]; simpl.
  - rewrite Hflag. simpl. case_bool_decide; eexists;
      (split_and!; [reflexivity | ..]); try intros k Hk1 Hk2;
      by simplify_map_eq.
  - unfold dict_getitem, str_join. rewrite Hdoc. run.
    rewrite Hflag. simpl. case_bool_decide; eexists;
      (split_and!; [reflexivity | ..]); try intros k Hk1 Hk2;
      by simplify_map_eq.
  - rewrite Hflag. simpl. case_bool_decide; eexists;
      (split_and!; [reflexivity | ..]); try intros k Hk1 Hk2;
      by simplify_map_eq.
Qed.

Lemma plugin_info_map_merges_doc_and_flags_default_witness :
  ∃ result,
    plugin_info_map (H := Scenario.plugins) Scenario.studio
      Scenario.default_studio = (Return result, Scenario.default_studio) ∧
    result !! "doc" =
      Some (VStr ("Studio media linker." +:+ nl +:+ nl +:+ "Link the clip.")) ∧
    result !! DEFAULT_FLAG = Some (VBool true) ∧
    ∀ k, k ≠ "doc" → k ≠ DEFAULT_FLAG →
         result !! k =
           ({[ "name" := VStr "studio-v1";
               "doc" := VStr "Studio media linker." ]} : gmap string value) !! k.
Proof.
  apply (plugin_info_map_merges_doc_and_flags_default (H := Scenario.plugins)
           Scenario.studio Scenario.default_studio
           {[ "name" := VStr "studio-v1"; "doc" := VStr "Studio media linker." ]}
           "Studio media linker." (Some "Link the clip.")
           (world Scenario.default_studio) (world Scenario.default_studio)).
  - reflexivity.
  - reflexivity.
  - reflexivity.
Defined.

(** C8, against the claim as written: leaving out the descriptor's own
    documentation does produce a separator.  For a plugin whose own
    documentation is empty and whose entry point is documented, the merged
    documentation starts with the blank line, where the specification's
    merge gives the entry point's documentation alone. *)
Lemma plugin_info_map_separator_without_descriptor_doc :
  ∃ result,
    (plugin_info_map (H := Scenario.plugins) Scenario.offline
       Scenario.unset).1 = Return result ∧
    result !! "doc" = Some (VStr (nl +:+ nl +:+ "Link the clip.")) ∧
    describe_doc "" (Some "Link the clip.") = "Link the clip." ∧
    result !! "doc" ≠ Some (VStr (describe_doc "" (Some "Link the clip."))).
Proof.
  eexists. split_and!; [reflexivity | reflexivity | reflexivity |].
  vm_compute. discriminate.
Qed.

(** C9.  The plugin's entry point never sees an absent argument map.  A
    false argument map ([None], an empty dictionary) given to
    [link_media_reference] or to [linked_media_reference] is replaced,
    before the plugin runs, by a dictionary that did not exist when the call
    was made and that is empty; nothing that existed is touched.  So for an
    argument that is [None] or a dictionary, what the plugin receives is a
    dictionary. *)
Theorem falsy_argument_map_becomes_new_dict `{PythonPlugin}
    (clip v : value) (st : State) :
  (truthy (heap (world st)) v = false →
   ∀ self, ∃ l w',
     heap (world st) !! l = None ∧ heap w' !! l = Some (Dict ∅) ∧
     extends (world st) w' ∧
     link_media_reference self clip v st =
       invoke self clip (VRef l) w' (log st)) ∧
  (truthy (heap (world st)) v = false →
   ∀ nm d st1, from_name nm st = (Return (Some d), st1) →
     ∃ l w',
       heap (world st) !! l = None ∧ heap w' !! l = Some (Dict ∅) ∧
       extends (world st) w' ∧
       linked_media_reference clip nm v st =
         invoke d clip (VRef l) w' (log st1)) ∧
  (v = VNone ∨ is_dict (world st) v →
   (∀ self, ∃ a w',
      is_dict w' a ∧
      link_media_reference self clip v st = invoke self clip a w' (log st)) ∧
   (∀ nm d st1, from_name nm st = (Return (Some d), st1) →
      ∃ a w',
        is_dict w' a ∧
        linked_media_reference clip nm v st = invoke d clip a w' (log st1))).
Proof.
  assert (truthy (heap (world st)) v = false →
          ∀ self, ∃ l w',
            heap (world st) !! l = None ∧ heap w' !! l = Some (Dict ∅) ∧
            extends (world st) w' ∧
            link_media_reference self clip v st =
              invoke self clip (VRef l) w' (log st)) as Hmethod.
  { intros Hv self.
    destruct (defaulted_falsy_new _ _ Hv) as (l & H1 & H2 & H3 & H4).
    exists l, (defaulted (world st) v).2. split_and!; [done | done | done |].
    by rewrite link_media_reference_run, H1. }
  assert (truthy (heap (world st)) v = false →
          ∀ nm d st1, from_name nm st = (Return (Some d), st1) →
            ∃ l w',
              heap (world st) !! l = None ∧ heap w' !! l = Some (Dict ∅) ∧
              extends (world st) w' ∧
              linked_media_reference clip nm v st =
                invoke d clip (VRef l) w' (log st1)) as Hfunction.
  { intros Hv nm d st1 Hfn.
    destruct (defaulted_twice_falsy_new _ _ Hv) as (l & H1 & H2 & H3 & H4).
    exists l, (defaulted_twice (world st) v).2.
    split_and!; [done | done | done |].
    by rewrite (linked_media_reference_resolved _ _ _ _ _ _ Hfn), H1. }
  split_and!; [done | done |].
  intros Hv.
  destruct (truthy (heap (world st)) v) eqn:Htruth.
  - destruct Hv as [-> | Hdict]; [done |].
    split.
    + intros self. exists v, (world st). split; [done |].
      by rewrite link_media_reference_run, (defaulted_truthy _ _ Htruth).
    + intros nm d st1 Hfn. exists v, (world st). split; [done |].
      rewrite (linked_media_reference_resolved _ _ _ _ _ _ Hfn).
      by rewrite (defaulted_twice_truthy _ _ Htruth).
  - split.
    + intros self.
      destruct (Hmethod eq_refl self) as (l & w' & _ & Hl & _ & Hrun).
      exists (VRef l), w'. split; [by exists l, ∅ | done].
    + intros nm d st1 Hfn.
      destruct (Hfunction eq_refl nm d st1 Hfn) as (l & w' & _ & Hl & _ & Hrun).
      exists (VRef l), w'. split; [by exists l, ∅ | done].
Qed.

Lemma falsy_argument_map_becomes_new_dict_witness :
  (∃ l w',
     heap (world Scenario.unset) !! l = None ∧ heap w' !! l = Some (Dict ∅) ∧
     extends (world Scenario.unset) w' ∧
     link_media_reference (H := Scenario.plugins) Scenario.studio
       Scenario.clip VNone Scenario.unset =
       invoke (H := Scenario.plugins) Scenario.studio Scenario.clip (VRef l)
         w' (log Scenario.unset)) ∧
  (∃ l w',
     heap (world Scenario.unset) !! l = None ∧ heap w' !! l = Some (Dict ∅) ∧
     extends (world Scenario.unset) w' ∧
     linked_media_reference (H := Scenario.plugins) Scenario.clip
       (Some "studio-v1") Scenario.empty_args Scenario.unset =
       invoke (H := Scenario.plugins) Scenario.studio Scenario.clip (VRef l)
         w' [ManifestFromName "studio-v1"]).
Proof.
  split.
  - apply (proj1 (falsy_argument_map_becomes_new_dict (H := Scenario.plugins)
                    Scenario.clip VNone Scenario.unset)).
    reflexivity.
  - apply (proj1 (proj2 (falsy_argument_map_becomes_new_dict
                           (H := Scenario.plugins) Scenario.clip
                           Scenario.empty_args Scenario.unset))
             eq_refl (Some "studio-v1") Scenario.studio
             (logged Scenario.unset [ManifestFromName "studio-v1"])).
    reflexivity.
Defined.

(** C10.  With the environment variable not set, [is_default_linker]
    compares the linker's name with the empty string: a linker with a
    non-empty name is not the default, a linker whose name is the empty
    string is reported as the default. *)
Theorem is_default_linker_when_unset (self : MediaLinker) (st : State) :
  environ (world st) !! DEFAULT_VAR = None →
  (∀ s, name self = Some s → s ≠ "" →
        is_default_linker self st = (Return false, st)) ∧
  (name self = Some "" → is_default_linker self st = (Return true, st)).
Proof.
  intros Henv. unfold is_default_linker, os_environ_get. run. rewrite Henv.
  split.
  - intros s -> Hs. rewrite bool_decide_eq_false_2; [done | congruence].
  - intros ->. by rewrite bool_decide_eq_true_2.
Qed.

Lemma is_default_linker_when_unset_witness :
  is_default_linker Scenario.studio Scenario.unset =
    (Return false, Scenario.unset) ∧
  is_default_linker Scenario.unnamed Scenario.unset =
    (Return true, Scenario.unset).
Proof.
  split.
  - apply (proj1 (is_default_linker_when_unset Scenario.studio Scenario.unset
                    eq_refl) "studio-v1"); [reflexivity | discriminate].
  - apply (proj2 (is_default_linker_when_unset Scenario.unnamed Scenario.unset
                    eq_refl)).
    reflexivity.
Defined.

(** * Further properties of the module *)

(** ** Shared facts *)

(** [from_name] is the specification's resolver followed by the guarded
    lookup. *)
Lemma from_name_resolve (nm : option string) (st : State) :
  from_name nm st =
    match resolve nm (environ (world st) !! DEFAULT_VAR) with
    | Some n => registry_lookup n st
    | None => (Return None, st)
    end.
Proof.
  destruct (decide (asks_for_default nm)) as [Hd | Hd].
  - rewrite from_name_default by done.
    assert (resolve nm (environ (world st) !! DEFAULT_VAR) =
            resolve None (environ (world st) !! DEFAULT_VAR)) as ->.
    { unfold resolve. cbv zeta.
      destruct Hd as [-> | [-> | ->]]; [| | reflexivity].
      - by rewrite bool_decide_eq_true_2 by (by left).
      - by rewrite bool_decide_eq_true_2 by (by right). }
    unfold resolve. cbv zeta.
    destruct (environ (world st) !! _) as [e|]; [| done].
    case_bool_decide as He; [by subst e |]. by destruct e.
  - destruct nm as [n|]; [| exfalso; apply Hd; by do 2 right].
    rewrite from_name_explicit by done.
    unfold resolve. rewrite bool_decide_eq_false_2.
    + destruct n; [| done]. exfalso. apply Hd. right. by left.
    + intros [-> | ->]; apply Hd; [by left | right; by left].
Qed.

Lemma find_named (l : list MediaLinker) (n : string) (d : MediaLinker) :
  find (λ thing, bool_decide (name thing = Some n)) l = Some d →
  d ∈ l ∧ name d = Some n.
Proof.
  intros Hf. apply find_some in Hf as [Hin Hn].
  split; [by apply list_elem_of_In | by apply bool_decide_eq_true in Hn].
Qed.

(** The strict accessor reads the variable and nothing else. *)
Lemma default_media_linker_run (st : State) :
  default_media_linker st =
    match environ (world st) !! DEFAULT_VAR with
    | Some v => (Return v, st)
    | None =>
        (Raise (Exn NoDefaultMediaLinkerError
                  (Format "No default Media Linker set in $OTIO_DEFAULT_MEDIA_LINKER"
                          [])),
         st)
    end.
Proof.
  unfold default_media_linker, os_environ_getitem. run.
  by destruct (environ (world st) !! _).
Qed.

Lemma defaulted_twice_extends (w : World) (v : value) :
  extends w (defaulted_twice w v).2.
Proof.
  destruct (truthy (heap w) v) eqn:Hv.
  - rewrite (defaulted_twice_truthy _ _ Hv). apply extends_refl.
  - rewrite (defaulted_twice_falsy _ _ Hv). simpl.
    eapply extends_trans; apply with_new_dict_extends.
Qed.

(** ** [linked_media_reference] *)

(** X1.  Whatever it is called with, [linked_media_reference] ends in one of
    three ways.  It returns the clip and leaves the state alone.  Or it
    raises its [NotSupportedError] after one lookup and one listing of the
    registry, the world being as before.  Or it has looked up one name and
    then called one registered linker bearing that name, once, in a world
    that only adds to the caller's; the result is that call's.  So there is
    never a second lookup, never a retry, and never a call of a plugin that
    was not looked up. *)
Theorem linked_media_reference_three_ways `{PythonPlugin}
    (clip : value) (nm : option string) (v : value) (st : State) :
  linked_media_reference clip nm v st = (Return clip, st) ∨
  (∃ n,
     linked_media_reference clip nm v st =
       (Raise (not_supported n (names_in (world st))),
        logged st [ManifestFromName n; ManifestMediaLinkers])) ∨
  (∃ n d a w',
     d ∈ media_linkers (world st) ∧ name d = Some n ∧
     extends (world st) w' ∧
     linked_media_reference clip nm v st =
       invoke d clip a w' (log st ++ [ManifestFromName n])).
Proof.
  rewrite linked_media_reference_run, from_name_resolve.
  destruct (resolve nm _) as [n|]; [| by left].
  right. unfold registry_lookup.
  destruct (find _ _) as [d|] eqn:Hfind.
  - right. apply find_named in Hfind as [Hin Hn].
    exists n, d, (defaulted_twice (world st) v).1,
      (defaulted_twice (world st) v).2.
    split_and!; [done | done | apply defaulted_twice_extends | done].
  - left. by exists n.
Qed.

(** X2.  A default that is set but empty counts as no default for
    [linked_media_reference]: asked for the default, it returns the clip and
    leaves the state alone, as it does when the variable is not set. *)
Theorem empty_default_returns_clip `{PythonPlugin}
    (clip : value) (nm : option string) (v : value) (st : State) :
  asks_for_default nm →
  environ (world st) !! DEFAULT_VAR = Some "" →
  linked_media_reference clip nm v st = (Return clip, st).
Proof.
  intros Hnm Henv.
  by rewrite linked_media_reference_run, from_name_default, Henv.
Qed.

Lemma empty_default_returns_clip_witness :
  linked_media_reference (H := Scenario.plugins) Scenario.clip None
    Scenario.root_args Scenario.default_empty =
    (Return Scenario.clip, Scenario.default_empty).
Proof.
  apply (empty_default_returns_clip (H := Scenario.plugins)).
  - by do 2 right.
  - reflexivity.
Defined.

(** X3.  The default policy follows the strict accessor.  Asked for the
    default, [linked_media_reference] returns the clip untouched whenever
    [default_media_linker] raises, and otherwise does exactly what it does
    when given the value that [default_media_linker] returns as an explicit
    name; this holds also when that value is empty or is the
    [ForceDefault] sentinel itself. *)
Theorem default_policy_follows_default_media_linker `{PythonPlugin}
    (clip : value) (nm : option string) (v : value) (st : State) :
  asks_for_default nm →
  match default_media_linker st with
  | (Return e, _) =>
      linked_media_reference clip nm v st =
        linked_media_reference clip (Some e) v st
  | (Raise _, _) => linked_media_reference clip nm v st = (Return clip, st)
  end.
Proof.
  intros Hnm. rewrite default_media_linker_run.
  destruct (environ (world st) !! DEFAULT_VAR) as [e|] eqn:Henv.
  - rewrite !linked_media_reference_run.
    rewrite (from_name_default nm), Henv by done.
    destruct (decide (asks_for_default (Some e))) as [He | He].
    + by rewrite (from_name_default (Some e)), Henv by done.
    + rewrite (from_name_explicit e) by done.
      rewrite bool_decide_eq_false_2; [done |].
      intros ->. apply He. right. by left.
  - by rewrite linked_media_reference_run, from_name_default, Henv.
Qed.

Lemma default_policy_follows_default_media_linker_witness :
  linked_media_reference (H := Scenario.plugins) Scenario.clip
    (Some MediaLinkingPolicy.ForceDefaultLinker) Scenario.root_args
    Scenario.default_studio =
  linked_media_reference (H := Scenario.plugins) Scenario.clip
    (Some "studio-v1") Scenario.root_args Scenario.default_studio.
Proof.
  exact (default_policy_follows_default_media_linker (H := Scenario.plugins)
           Scenario.clip (Some MediaLinkingPolicy.ForceDefaultLinker)
           Scenario.root_args Scenario.default_studio (or_introl eq_refl)).
Defined.

(** X4.  When the default is asked for and the environment names a linker
    that is not registered, the [NotSupportedError] is about the name found
    in the environment, not about the [ForceDefault] sentinel or the empty
    name that was passed in. *)
Theorem unregistered_default_is_named_in_the_error `{PythonPlugin}
    (clip : value) (nm : option string) (e : string) (v : value)
    (st : State) :
  asks_for_default nm →
  environ (world st) !! DEFAULT_VAR = Some e →
  e ≠ "" →
  (∀ d, d ∈ media_linkers (world st) → name d ≠ Some e) →
  linked_media_reference clip nm v st =
    (Raise (not_supported e (names_in (world st))),
     logged st [ManifestFromName e; ManifestMediaLinkers]).
Proof.
  intros Hnm Henv He Hno.
  rewrite linked_media_reference_run, from_name_default, Henv by done.
  rewrite bool_decide_eq_false_2 by done.
  by rewrite registry_lookup_unregistered.
Qed.

Lemma unregistered_default_is_named_in_the_error_witness :
  linked_media_reference (H := Scenario.plugins) Scenario.clip
    (Some MediaLinkingPolicy.ForceDefaultLinker) Scenario.empty_args
    Cases.default_ghost =
    (Raise (not_supported "ghost" ["studio-v1"; "offline"; ""]),
     logged Cases.default_ghost
       [ManifestFromName "ghost"; ManifestMediaLinkers]).
Proof.
  apply (unregistered_default_is_named_in_the_error (H := Scenario.plugins)
           Scenario.clip (Some MediaLinkingPolicy.ForceDefaultLinker) "ghost"
           Scenario.empty_args Cases.default_ghost).
  - by left.
  - reflexivity.
  - discriminate.
  - intros d Hd. simpl in Hd.
    repeat (apply elem_of_cons in Hd as [-> | Hd]; [discriminate |]).
    by apply elem_of_nil in Hd.
Defined.



(** ** [from_name] *)

(** X6.  The only way [from_name] fails is with its own [NotSupportedError]
    for the name it resolved (the requested name, or the environment default
    in its place): the message carries that name and the names in the
    registry, one lookup and one listing have been logged, and the world is
    untouched.  It never fails for want of a default. *)
Theorem from_name_fails_only_with_not_supported
    (nm : option string) (st st' : State) (e : exn) :
  from_name nm st = (Raise e, st') →
  ∃ n,
    resolve nm (environ (world st) !! DEFAULT_VAR) = Some n ∧
    (∀ d, d ∈ media_linkers (world st) → name d ≠ Some n) ∧
    e = not_supported n (names_in (world st)) ∧
    st' = logged st [ManifestFromName n; ManifestMediaLinkers].
Proof.
  rewrite from_name_resolve.
  destruct (resolve nm _) as [n|]; [| done].
  unfold registry_lookup.
  destruct (find _ _) eqn:Hfind; [done |].
  intros [= <- <-]. exists n. split_and!; [done | | done | done].
  intros d Hd Hn.
  eapply find_none in Hfind; [| by apply list_elem_of_In].
  simpl in Hfind. by rewrite bool_decide_eq_true_2 in Hfind.
Qed.

Lemma from_name_fails_only_with_not_supported_witness :
  ∃ n,
    resolve (Some MediaLinkingPolicy.ForceDefaultLinker)
      (environ (world Cases.default_ghost) !! DEFAULT_VAR) = Some n ∧
    (∀ d, d ∈ media_linkers (world Cases.default_ghost) → name d ≠ Some n) ∧
    not_supported "ghost" ["studio-v1"; "offline"; ""] =
      not_supported n (names_in (world Cases.default_ghost)) ∧
    logged Cases.default_ghost
      [ManifestFromName "ghost"; ManifestMediaLinkers] =
      logged Cases.default_ghost [ManifestFromName n; ManifestMediaLinkers].
Proof.
  apply (from_name_fails_only_with_not_supported
           (Some MediaLinkingPolicy.ForceDefaultLinker) Cases.default_ghost).
  reflexivity.
Defined.

(** ** [is_default_linker] *)

(** X7.  [is_default_linker] answers by the name alone and changes nothing:
    a linker that was given no name is never the default; with the variable
    set to [e] a linker is the default exactly when its name is [e]; and
    two linkers that are the default in the same state bear the same
    name. *)
Theorem is_default_linker_goes_by_name (a b : MediaLinker) (st : State) :
  (name a = None → is_default_linker a st = (Return false, st)) ∧
  (∀ e, environ (world st) !! DEFAULT_VAR = Some e →
        is_default_linker a st = (Return (bool_decide (name a = Some e)), st)) ∧
  (is_default_linker a st = (Return true, st) →
   is_default_linker b st = (Return true, st) →
   name a = name b).
Proof.
  unfold is_default_linker, os_environ_get. run. split_and!.
  - intros ->. rewrite bool_decide_eq_false_2; [done |].
    by destruct (environ (world st) !! _).
  - intros e ->. do 2 f_equal. apply bool_decide_ext. naive_solver.
  - intros [= Ha] [= Hb].
    apply bool_decide_eq_true in Ha, Hb. congruence.
Qed.

Lemma is_default_linker_goes_by_name_witness :
  is_default_linker Cases.nameless Scenario.default_studio =
    (Return false, Scenario.default_studio) ∧
  is_default_linker Scenario.studio Scenario.default_studio =
    (Return true, Scenario.default_studio) ∧
  name Scenario.studio = name Scenario.studio.
Proof.
  pose proof (is_default_linker_goes_by_name Cases.nameless Scenario.studio
                Scenario.default_studio) as (Hnone & _ & _).
  pose proof (is_default_linker_goes_by_name Scenario.studio Scenario.studio
                Scenario.default_studio) as (_ & Hset & Hsame).
  split_and!.
  - apply Hnone. reflexivity.
  - apply (Hset "studio-v1"). reflexivity.
  - apply Hsame; reflexivity.
Defined.

(** ** [plugin_info_map] *)

(** X8.  When the entry point is documented but the base class's map has no
    ["doc"] entry, [plugin_info_map] raises [KeyError] for ["doc"]; nothing
    is logged and the world is the one the two introspection calls left. *)
Theorem plugin_info_map_needs_a_doc_entry `{PythonPlugin}
    (self : MediaLinker) (st : State) (info : gmap string value)
    (f : string) (w1 w2 : World) :
  super_plugin_info_map self (world st) = (Return info, w1) →
  getdoc_link_media_reference self w1 = (Return (Some f), w2) →
  f ≠ "" →
  info !! "doc" = None →
  plugin_info_map self st =
    (Raise (Exn KeyError (Format "doc" [])),
     {| world := w2; log := log st |}).
Proof.
  intros Hsuper Hgetdoc Hf Hdoc.
  unfold plugin_info_map. run. rewrite Hsuper. simpl. rewrite Hgetdoc. simpl.
  rewrite bool_decide_eq_false_2 by done. simpl.
  unfold dict_getitem. rewrite Hdoc. by run.
Qed.

Lemma plugin_info_map_needs_a_doc_entry_witness :
  plugin_info_map (H := Cases.no_doc_entry) Scenario.studio Scenario.unset =
    (Raise (Exn KeyError (Format "doc" [])), Scenario.unset).
Proof.
  apply (plugin_info_map_needs_a_doc_entry (H := Cases.no_doc_entry)
           Scenario.studio Scenario.unset {[ "name" := VStr "studio-v1" ]}
           "Link the clip." (world Scenario.unset) (world Scenario.unset)).
  - reflexivity.
  - reflexivity.
  - discriminate.
  - reflexivity.
Defined.

(** X9.  When the entry point is documented but the base class's ["doc"]
    entry is not a string (it is [None] for a module without a docstring),
    [plugin_info_map] raises [TypeError] from the join instead of returning
    a map. *)
Theorem plugin_info_map_needs_a_string_doc `{PythonPlugin}
    (self : MediaLinker) (st : State) (info : gmap string value)
    (f : string) (d : value) (w1 w2 : World) :
  super_plugin_info_map self (world st) = (Return info, w1) →
  getdoc_link_media_reference self w1 = (Return (Some f), w2) →
  f ≠ "" →
  info !! "doc" = Some d →
  (∀ s, d ≠ VStr s) →
  ∃ msg,
    plugin_info_map self st =
      (Raise (Exn TypeError msg), {| world := w2; log := log st |}).
Proof.
  intros Hsuper Hgetdoc Hf Hdoc Hd.
  unfold plugin_info_map. run. rewrite Hsuper. simpl. rewrite Hgetdoc. simpl.
  rewrite bool_decide_eq_false_2 by done. simpl.
  unfold dict_getitem. rewrite Hdoc. run.
  unfold str_join.
  destruct d as [| | | s |]; try (eexists; by run).
  by destruct (Hd s).
Qed.

Lemma plugin_info_map_needs_a_string_doc_witness :
  ∃ msg,
    plugin_info_map (H := Cases.none_doc_entry) Scenario.studio
      Scenario.unset = (Raise (Exn TypeError msg), Scenario.unset).
Proof.
  apply (plugin_info_map_needs_a_string_doc (H := Cases.none_doc_entry)
           Scenario.studio Scenario.unset
           {[ "name" := VStr "studio-v1"; "doc" := VNone ]}
           "Link the clip." VNone (world Scenario.unset)
           (world Scenario.unset)).
  - reflexivity.
  - reflexivity.
  - discriminate.
  - reflexivity.
  - discriminate.
Defined.

(** X10.  When the entry point has no documentation, or an empty one, the
    base class's map is not read at all: whatever it holds under ["doc"],
    even nothing or something that is not a string, [plugin_info_map]
    returns it as it is, with the default flag added to it when the linker
    is the default. *)
Theorem undocumented_entry_point_keeps_the_map `{PythonPlugin}
    (self : MediaLinker) (st : State) (info : gmap string value)
    (fn_doc : option string) (w1 w2 : World) :
  super_plugin_info_map self (world st) = (Return info, w1) →
  getdoc_link_media_reference self w1 = (Return fn_doc, w2) →
  fn_doc = None ∨ fn_doc = Some "" →
  plugin_info_map self st =
    (Return (if bool_decide
                  (name self = Some (default "" (environ w2 !! DEFAULT_VAR)))
             then <[DEFAULT_FLAG := VBool true]> info else info),
     {| world := w2; log := log st |}).
Proof.
  intros Hsuper Hgetdoc Hfn.
  unfold plugin_info_map, is_default_linker, os_environ_get. run.
  rewrite Hsuper. simpl. rewrite Hgetdoc. simpl.
  assert (bool_decide (match environ w2 !! DEFAULT_VAR with
                       | Some v => Some v
                       | None => Some ""
                       end = name self) =
          bool_decide
            (name self = Some (default "" (environ w2 !! DEFAULT_VAR))))
    as Hflag.
  { destruct (environ w2 !! _); simpl; apply bool_decide_ext; naive_solver. }
  destruct Hfn as [-> | ->]; simpl; by rewrite Hflag.
Qed.

Lemma undocumented_entry_point_keeps_the_map_witness :
  plugin_info_map (H := Scenario.plugins) Scenario.unnamed Scenario.unset =
    (Return (<[DEFAULT_FLAG := VBool true]>
               {[ "name" := VStr ""; "doc" := VStr "" ]}),
     Scenario.unset).
Proof.
  apply (undocumented_entry_point_keeps_the_map (H := Scenario.plugins)
           Scenario.unnamed Scenario.unset
           {[ "name" := VStr ""; "doc" := VStr "" ]} None
           (world Scenario.unset) (world Scenario.unset)).
  - reflexivity.
  - reflexivity.
  - by left.
Defined.

(** X11.  [plugin_info_map] passes on what the introspection raises.  If
    the base class's [plugin_info_map] raises, that exception comes out and
    the entry point's documentation is not asked for; if looking up the
    entry point's documentation raises, that exception comes out.  Nothing
    is logged either way. *)
Theorem plugin_info_map_passes_failures_on `{PythonPlugin}
    (self : MediaLinker) (st : State) (e : exn) :
  (∀ w1,
     super_plugin_info_map self (world st) = (Raise e, w1) →
     plugin_info_map self st = (Raise e, {| world := w1; log := log st |})) ∧
  (∀ info w1 w2,
     super_plugin_info_map self (world st) = (Return info, w1) →
     getdoc_link_media_reference self w1 = (Raise e, w2) →
     plugin_info_map self st = (Raise e, {| world := w2; log := log st |})).
Proof.
  split.
  - intros w1 Hsuper. unfold plugin_info_map. run. by rewrite Hsuper.
  - intros info w1 w2 Hsuper Hgetdoc. unfold plugin_info_map. run.
    rewrite Hsuper. simpl. by rewrite Hgetdoc.
Qed.

Lemma plugin_info_map_passes_failures_on_witness :
  plugin_info_map (H := Cases.failing_base) Scenario.studio Scenario.unset =
    (Raise Cases.import_error, Scenario.unset) ∧
  plugin_info_map (H := Cases.no_entry_point) Scenario.studio Scenario.unset =
    (Raise Cases.attribute_error, Scenario.unset).
Proof.
  split.
  - apply (proj1 (plugin_info_map_passes_failures_on (H := Cases.failing_base)
                    Scenario.studio Scenario.unset Cases.import_error)
             (world Scenario.unset)).
    reflexivity.
  - apply (proj2 (plugin_info_map_passes_failures_on
                    (H := Cases.no_entry_point) Scenario.studio Scenario.unset
                    Cases.attribute_error)
             {[ "doc" := VStr "Studio media linker." ]}
             (world Scenario.unset) (world Scenario.unset)).
    + reflexivity.
    + reflexivity.
Defined.

(** ** [available_media_linker_names] *)

Lemma names_of_named (l : list MediaLinker) :
  (∀ d, d ∈ l → name d ≠ None) →
  Some <$> ((λ adp, py_str (name adp)) <$> l) = name <$> l.
Proof.
  induction l as [|x l IH]; intros Hnamed; [done |].
  rewrite !fmap_cons, IH.
  - f_equal. destruct (name x) eqn:Hx; [done |].
    exfalso. apply (Hnamed x); [left | done].
  - intros d Hd. apply Hnamed. by right.
Qed.

(** X12.  [available_media_linker_names] reads the registry once and
    changes nothing.  It returns one string per registered linker, in the
    order of the registry, the [str] of the linker's name; so when every
    linker has a name the list is exactly the list of their names, and a
    linker without a name shows up as ["None"]. *)
Theorem available_names_follow_the_registry (st : State) :
  ∃ names,
    available_media_linker_names st =
      (Return names, logged st [ManifestMediaLinkers]) ∧
    length names = length (media_linkers (world st)) ∧
    (∀ i d, media_linkers (world st) !! i = Some d →
            names !! i = Some (py_str (name d))) ∧
    ((∀ d, d ∈ media_linkers (world st) → name d ≠ None) →
     Some <$> names = name <$> media_linkers (world st)) ∧
    (∀ d, d ∈ media_linkers (world st) → name d = None → "None" ∈ names).
Proof.
  exists (names_in (world st)). unfold names_in. split_and!.
  - unfold available_media_linker_names, ActiveManifest_media_linkers, logged.
    by run.
  - apply length_fmap.
  - intros i d Hi. by rewrite list_lookup_fmap, Hi.
  - apply names_of_named.
  - intros d Hd Hn. apply list_elem_of_fmap. exists d. by rewrite Hn.
Qed.

(** X13.  In a registry where every linker has a name, the name that
    [linked_media_reference] rejects is not among the available names its
    error lists. *)
Theorem rejected_name_is_not_listed `{PythonPlugin}
    (clip : value) (n : string) (v : value) (st : State) :
  ¬ asks_for_default (Some n) →
  (∀ d, d ∈ media_linkers (world st) → name d ≠ None) →
  (∀ d, d ∈ media_linkers (world st) → name d ≠ Some n) →
  ∃ names,
    linked_media_reference clip (Some n) v st =
      (Raise (not_supported n names),
       logged st [ManifestFromName n; ManifestMediaLinkers]) ∧
    n ∉ names.
Proof.
  intros Hn Hnamed Hno. exists (names_in (world st)). split.
  - rewrite linked_media_reference_run, from_name_explicit by done.
    by rewrite registry_lookup_unregistered.
  - unfold names_in. intros Hin.
    apply list_elem_of_fmap in Hin as (d & Hd & Hin).
    destruct (name d) as [s|] eqn:Hs.
    + simpl in Hd. subst s. by apply (Hno d).
    + by apply (Hnamed d).
Qed.

Lemma rejected_name_is_not_listed_witness :
  ∃ names,
    linked_media_reference (H := Scenario.plugins) Scenario.clip
      (Some "ghost") Scenario.root_args Cases.named_only =
      (Raise (not_supported "ghost" names),
       logged Cases.named_only
         [ManifestFromName "ghost"; ManifestMediaLinkers]) ∧
    "ghost" ∉ names.
Proof.
  apply (rejected_name_is_not_listed (H := Scenario.plugins) Scenario.clip
           "ghost" Scenario.root_args Cases.named_only).
  - unfold asks_for_default. intros [[=] | [[=] | [=]]].
  - intros d Hd. simpl in Hd.
    repeat (apply elem_of_cons in Hd as [-> | Hd]; [discriminate |]).
    by apply elem_of_nil in Hd.
  - intros d Hd. simpl in Hd.
    repeat (apply elem_of_cons in Hd as [-> | Hd]; [discriminate |]).
    by apply elem_of_nil in Hd.
Defined.

(** X14.  A linker without a name is listed as ["None"] but cannot be asked
    for: unless some linker is literally named ["None"], requesting
    ["None"] raises the [NotSupportedError], and its list of available
    names contains ["None"]. *)
Theorem nameless_linker_is_listed_but_not_found `{PythonPlugin}
    (clip : value) (d : MediaLinker) (v : value) (st : State) :
  d ∈ media_linkers (world st) →
  name d = None →
  (∀ d', d' ∈ media_linkers (world st) → name d' ≠ Some "None") →
  ∃ names,
    linked_media_reference clip (Some "None") v st =
      (Raise (not_supported "None" names),
       logged st [ManifestFromName "None"; ManifestMediaLinkers]) ∧
    "None" ∈ names.
Proof.
  intros Hd Hname Hno. exists (names_in (world st)). split.
  - rewrite linked_media_reference_run, from_name_explicit.
    + by rewrite registry_lookup_unregistered.
    + unfold asks_for_default. intros [[=] | [[=] | [=]]].
  - unfold names_in. apply list_elem_of_fmap. exists d. by rewrite Hname.
Qed.

Lemma nameless_linker_is_listed_but_not_found_witness :
  ∃ names,
    linked_media_reference (H := Scenario.plugins) Scenario.clip
      (Some "None") Scenario.root_args Cases.with_nameless =
      (Raise (not_supported "None" names),
       logged Cases.with_nameless
         [ManifestFromName "None"; ManifestMediaLinkers]) ∧
    "None" ∈ names.
Proof.
  apply (nameless_linker_is_listed_but_not_found (H := Scenario.plugins)
           Scenario.clip Cases.nameless Scenario.root_args
           Cases.with_nameless).
  - simpl. right. by left.
  - reflexivity.
  - intros d Hd. simpl in Hd.
    repeat (apply elem_of_cons in Hd as [-> | Hd]; [discriminate |]).
    by apply elem_of_nil in Hd.
Defined.

(** ** [from_name], when it returns *)

(** X15.  What [from_name] returns tells how the name was resolved.  It
    returns [None] only when the default was asked for and the variable is
    unset or empty, and then nothing has happened; an explicit name never
    gives [None].  When it returns a linker, that linker is registered and
    bears the resolved name, exactly one lookup has been logged, and the
    world is untouched. *)
Theorem from_name_returns (nm : option string) (st st' : State) :
  (from_name nm st = (Return None, st') →
   st' = st ∧ asks_for_default nm ∧
   (environ (world st) !! DEFAULT_VAR = None ∨
    environ (world st) !! DEFAULT_VAR = Some "")) ∧
  (∀ d, from_name nm st = (Return (Some d), st') →
     ∃ n,
       resolve nm (environ (world st) !! DEFAULT_VAR) = Some n ∧
       d ∈ media_linkers (world st) ∧ name d = Some n ∧
       st' = logged st [ManifestFromName n]).
Proof.
  split.
  - destruct (decide (asks_for_default nm)) as [Hd | Hd].
    + rewrite from_name_default by done.
      destruct (environ (world st) !! _) as [e|]; [| intros [= <-]; auto].
      case_bool_decide as He.
      * subst e. intros [= <-]. auto.
      * unfold registry_lookup. by destruct (find _ _).
    + destruct nm as [n|]; [| exfalso; apply Hd; by do 2 right].
      rewrite from_name_explicit by done.
      unfold registry_lookup. by destruct (find _ _).
  - intros d. rewrite from_name_resolve.
    destruct (resolve nm _) as [n|]; [| done].
    unfold registry_lookup. destruct (find _ _) as [d'|] eqn:Hfind; [| done].
    intros [= -> <-]. apply find_named in Hfind as [Hin Hn].
    by exists n.
Qed.

Lemma from_name_returns_witness :
  (Scenario.unset = Scenario.unset ∧
   asks_for_default (Some MediaLinkingPolicy.ForceDefaultLinker) ∧
   (environ (world Scenario.unset) !! DEFAULT_VAR = None ∨
    environ (world Scenario.unset) !! DEFAULT_VAR = Some "")) ∧
  (∃ n,
     resolve (Some "offline") (environ (world Scenario.unset) !! DEFAULT_VAR) =
       Some n ∧
     Scenario.offline ∈ media_linkers (world Scenario.unset) ∧
     name Scenario.offline = Some n ∧
     logged Scenario.unset [ManifestFromName "offline"] =
       logged Scenario.unset [ManifestFromName n]).
Proof.
  split.
  - apply (proj1 (from_name_returns
                    (Some MediaLinkingPolicy.ForceDefaultLinker)
                    Scenario.unset Scenario.unset)).
    reflexivity.
  - apply (proj2 (from_name_returns (Some "offline") Scenario.unset
                    (logged Scenario.unset [ManifestFromName "offline"]))
             Scenario.offline).
    reflexivity.
Defined.

(** X16.  The default policy and [is_default_linker] agree when a linker is
    chosen: a linker that [from_name] returns for a request for the default
    is one that [is_default_linker] reports as the default in that state. *)
Theorem default_choice_is_default_linker
    (nm : option string) (d : MediaLinker) (st st' : State) :
  asks_for_default nm →
  from_name nm st = (Return (Some d), st') →
  is_default_linker d st = (Return true, st).
Proof.
  intros Hnm. rewrite from_name_default by done.
  unfold is_default_linker, os_environ_get. run.
  destruct (environ (world st) !! _) as [e|]; [| done].
  case_bool_decide; [done |].
  unfold registry_lookup. destruct (find _ _) as [d'|] eqn:Hfind; [| done].
  intros [= -> _]. apply find_named in Hfind as [_ Hn].
  by rewrite bool_decide_eq_true_2.
Qed.

Lemma default_choice_is_default_linker_witness :
  is_default_linker Scenario.studio Scenario.default_studio =
    (Return true, Scenario.default_studio).
Proof.
  apply (default_choice_is_default_linker
           (Some MediaLinkingPolicy.ForceDefaultLinker) Scenario.studio
           Scenario.default_studio
           (logged Scenario.default_studio [ManifestFromName "studio-v1"])).
  - by left.
  - reflexivity.
Defined.
